(** * multi_market_loader.py: the Indian market (IRFC) data loader

    A shallow embedding of [IndianMarketDataLoader] and of the few pandas
    and yfinance operations it calls, followed by the properties of the
    loader.

    - [Python]  : exceptions, [str.lower], [str(int)], and the effects the
                  loader has: lines written by [print], the one call of the
                  quote provider, raising and [try]/[except].
    - [Pandas]  : a [DataFrame] with a date index and labelled columns (labels
                  may repeat, as in pandas), [empty], [len], assignment to
                  [columns] and selection by a list of labels.
    - [Loader]  : the class itself. *)

From Stdlib Require Import ZArith Ascii String DecimalString Sorted.
From stdpp Require Import base option list strings gmap.


(** ** Python *)

Module Python.

(** An instance of (a subclass of) [Exception]: its class name and the
    text [str(e)] gives.  Two values are the same exception when they are
    equal.  [BaseException]s that are not [Exception]s (KeyboardInterrupt,
    SystemExit) are no errors and are outside this type. *)
Record Exception : Type := mkException {
  exc_class : string;
  exc_str : string
}.

Definition ValueError (msg : string) : Exception := mkException "ValueError" msg.
(** [str(KeyError(k))] is the repr of the key. *)
Definition KeyError (k : string) : Exception :=
  mkException "KeyError" ("'" +:+ k +:+ "'").

#[global] Instance Exception_eq_dec : EqDecision Exception.
Proof. solve_decision. Defined.

(** What a call ends in: a value, or a raised exception. *)
Inductive Outcome (A : Type) : Type :=
| Return (a : A)
| Raise (e : Exception).
#[global] Arguments Return {A} a.
#[global] Arguments Raise {A} e.

(** [str.lower] on one character and on a string.  A string is its UTF-8
    bytes; the letters A..Z go to a..z and every other byte stays.  (On
    non-ASCII characters Python's mapping differs, but none of them is sent
    to a string of the letters used in the column names below.) *)
Definition lower_ascii (c : ascii) : ascii :=
  let n := nat_of_ascii c in
  if Nat.leb 65 n && Nat.leb n 90 then ascii_of_nat (n + 32) else c.

Fixpoint lower (s : string) : string :=
  match s with
  | EmptyString => EmptyString
  | String c s' => String (lower_ascii c) (lower s')
  end.

(** [str(n)] for a non-negative int, as the f-strings use it. *)
Definition str_of_nat (n : nat) : string :=
  NilEmpty.string_of_uint (Nat.to_uint n).

(** [all(...)] over a list of booleans computed from the elements. *)
Definition all {A : Type} (f : A → bool) (l : list A) : bool := forallb f l.
#[global] Arguments all : simpl never.

(** What the world sees of a run: the lines printed, and the requests sent
    to the quote provider. *)
Inductive Event : Type :=
| Stdout (line : string)
| ProviderCall (symbol start end_ : string).

#[global] Instance Event_eq_dec : EqDecision Event.
Proof. solve_decision. Defined.

Section Effects.
(** [R] is what the provider answers with. *)
Context {R : Type}.

(** [yf.Ticker(symbol).history(start=..., end=...)]: the answer of the
    provider to a request, a table or an exception. *)
Definition Provider : Type := string → string → string → Outcome R.

(** A computation reads the provider, and gives the events in the order
    they happened, with its outcome. *)
Definition Py (A : Type) : Type := Provider → list Event * Outcome A.

Definition run {A : Type} (m : Py A) (p : Provider) : list Event * Outcome A := m p.

Definition py_ret {A : Type} (a : A) : Py A := λ _, ([], Return a).

Definition py_bind {A B : Type} (k : A → Py B) (m : Py A) : Py B :=
  λ p, match m p with
       | (log, Return a) => let '(log', o) := k a p in (log ++ log', o)
       | (log, Raise e) => (log, Raise e)
       end.

(** [raise e] *)
Definition raise {A : Type} (e : Exception) : Py A := λ _, ([], Raise e).

(** [print(line)] *)
Definition print (line : string) : Py unit := λ _, ([Stdout line], Return tt).

(** The provider is asked once, and its exception, if any, is raised
    here. *)
Definition history (symbol start end_ : string) : Py R :=
  λ p, ([ProviderCall symbol start end_], p symbol start end_).

(** [try: body except Exception as e: handler(e)] *)
Definition try_except {A : Type} (body : Py A) (handler : Exception → Py A) : Py A :=
  λ p, match body p with
       | (log, Return a) => (log, Return a)
       | (log, Raise e) => let '(log', o) := handler e p in (log ++ log', o)
       end.

(** An [Outcome] computed without effects, used as a statement. *)
Definition lift {A : Type} (o : Outcome A) : Py A := λ _, ([], o).
End Effects.

#[global] Arguments Provider R : clear implicits.
#[global] Arguments Py R A : clear implicits.

#[global] Instance Py_ret {R} : MRet (Py R) := λ A, py_ret.
#[global] Instance Py_bind {R} : MBind (Py R) := λ A B, py_bind.

(** [d[k]] on a dict: [KeyError] when the key is absent. *)
Definition dict_getitem {R : Type} (d : gmap string string) (k : string) : Py R string :=
  match d !! k with
  | Some v => mret v
  | None => raise (KeyError k)
  end.

(** [k in d] on a dict. *)
Definition dict_contains (k : string) (d : gmap string string) : bool :=
  bool_decide (is_Some (d !! k)).

(** [for x in l: body(x)] *)
Fixpoint for_each {R A : Type} (l : list A) (body : A → Py R unit) : Py R unit :=
  match l with
  | [] => mret tt
  | x :: l' => body x;; for_each l' body
  end.

(** [repr] of a str.  Python quotes with ['], or with the double quote when
    the text has a ['] and no double quote; it escapes the quote in use and
    the backslash, writes tab, newline and carriage return as [\t], [\n],
    [\r] and the other control characters as [\xNN].  The bytes from 128
    on (the UTF-8 of a printable character that is not ASCII) stay. *)
Definition squote : ascii := "039"%char.
Definition dquote : ascii := "034"%char.
Definition backslash : ascii := "092"%char.

Definition hex_digit (n : nat) : ascii :=
  if Nat.ltb n 10 then ascii_of_nat (48 + n) else ascii_of_nat (87 + n).

Definition repr_char (quote c : ascii) : string :=
  let n := nat_of_ascii c in
  if Ascii.eqb c quote || Ascii.eqb c backslash then String backslash (String c EmptyString)
  else if Nat.eqb n 9 then String backslash "t"
  else if Nat.eqb n 10 then String backslash "n"
  else if Nat.eqb n 13 then String backslash "r"
  else if Nat.ltb n 32 || Nat.eqb n 127 then
    String backslash
      (String "x" (String (hex_digit (n / 16)) (String (hex_digit (n mod 16)) EmptyString)))
  else String c EmptyString.

Fixpoint escape (quote : ascii) (s : string) : string :=
  match s with
  | EmptyString => EmptyString
  | String c s' => repr_char quote c +:+ escape quote s'
  end.

Fixpoint occurs (c : ascii) (s : string) : bool :=
  match s with
  | EmptyString => false
  | String c' s' => Ascii.eqb c c' || occurs c s'
  end.

Definition repr_str (s : string) : string :=
  let quote := if occurs squote s && negb (occurs dquote s) then dquote else squote in
  String quote (escape quote s +:+ String quote EmptyString).

(** [repr] of a list of str, and of a pair of ints. *)
Definition repr_list (l : list string) : string :=
  "[" +:+ String.concat ", " (repr_str <$> l) +:+ "]".

Definition repr_pair (ab : nat * nat) : string :=
  "(" +:+ str_of_nat ab.1 +:+ ", " +:+ str_of_nat ab.2 +:+ ")".

(** The newline character. *)
Definition nl : string := String "010"%char EmptyString.

(** The events of a run that are requests to the provider. *)
Definition is_provider_call (ev : Event) : bool :=
  match ev with ProviderCall _ _ _ => true | Stdout _ => false end.

Definition provider_calls (log : list Event) : list Event :=
  List.filter is_provider_call log.

End Python.

(** ** pandas *)

Module Pandas.
Import Python.

Section Frame.
(** [V] is the type of the cells.  The loader never looks at a cell. *)
Context {V : Type}.

(** A table: the date of each row (a number that grows with time; the
    examples count days since 1970-01-01), and the columns from left to
    right, each with its label and its cells.  pandas allows a label to
    occur more than once. *)
Record DataFrame : Type := mkDataFrame {
  index : list Z;
  series : list (string * list V)
}.

(** Every column has one cell per row. *)
Definition well_formed (df : DataFrame) : Prop :=
  Forall (λ c, length c.2 = length (index df)) (series df).

(** [df.columns] *)
Definition columns (df : DataFrame) : list string := (series df).*1.

(** [len(df)]: the number of rows. *)
Definition len (df : DataFrame) : nat := length (index df).

(** [df.shape]: the numbers of rows and of columns. *)
Definition shape (df : DataFrame) : nat * nat := (length (index df), length (columns df)).

(** [df.empty]: some axis has length 0. *)
Definition empty (df : DataFrame) : bool :=
  Nat.eqb (length (index df)) 0 || Nat.eqb (length (columns df)) 0.

(** [df.columns = labels]: the labels are replaced from left to right;
    a list of another length is refused. *)
Definition set_columns (labels : list string) (df : DataFrame) : Outcome DataFrame :=
  if Nat.eqb (length labels) (length (series df)) then
    Return (mkDataFrame (index df) (zip labels (series df).*2))
  else
    Raise (ValueError ("Length mismatch: Expected axis has "
                       +:+ str_of_nat (length (series df))
                       +:+ " elements, new values have "
                       +:+ str_of_nat (length labels) +:+ " elements")).

(** [label in df.columns] *)
Definition has_column (label : string) (df : DataFrame) : bool :=
  bool_decide (label ∈ columns df).

(** The columns that carry [label], from left to right. *)
Definition columns_labelled (label : string) (df : DataFrame) : list (string * list V) :=
  List.filter (λ c, String.eqb c.1 label) (series df).

(** [df[keys]] for a list of labels: for each key in turn, every column
    that carries it; the rows are kept.  So with the columns a, a, b the
    selection [df[['a', 'b']]] has the columns a, a, b.  A key that labels
    no column is a [KeyError] (the key stands for the text of pandas'
    message). *)
Definition getitem_list (keys : list string) (df : DataFrame) : Outcome DataFrame :=
  match List.find (λ k, negb (has_column k df)) keys with
  | Some k => Raise (KeyError k)
  | None => Return (mkDataFrame (index df) (flat_map (λ k, columns_labelled k df) keys))
  end.
End Frame.

#[global] Arguments DataFrame V : clear implicits.
End Pandas.

(** ** The loader *)

Module Loader.
Import Python Pandas.

(** The class attribute [INDIAN_MARKET]. *)
Definition INDIAN_MARKET : gmap string string := {[ "IRFC" := "IRFC.NS" ]}.

Definition required_cols : list string := ["open"; "high"; "low"; "close"; "volume"].

Section Methods.
Context {V : Type}.

(** The methods run against a provider of tables. *)
#[local] Abbreviation M := (Py (DataFrame V)).

(** [download_market_data(self, market_code, start_date, end_date)] *)
Definition download_market_data (market_code start_date end_date : string)
  : M (DataFrame V) :=
  market_code ←
    (if negb (dict_contains market_code INDIAN_MARKET) then
       print ("Warning: Only IRFC (Indian) market supported. Using IRFC instead of "
              +:+ market_code);;
       mret "IRFC"
     else mret market_code);
  symbol ← dict_getitem INDIAN_MARKET market_code;
  print ("Downloading Indian market data (" +:+ symbol +:+ ") from "
         +:+ start_date +:+ " to " +:+ end_date +:+ "...");;
  try_except
    (data ← history symbol start_date end_date;
     if empty data then
       raise (ValueError ("No data found for " +:+ market_code
                          +:+ " (" +:+ symbol +:+ ")"))
     else
       data ← lift (set_columns (lower <$> columns data) data);
       if negb (all (λ col, has_column col data) required_cols) then
         raise (ValueError ("Missing required columns for " +:+ market_code))
       else
         print ("✓ Downloaded " +:+ str_of_nat (len data)
                +:+ " samples for Indian market (IRFC)");;
         lift (getitem_list required_cols data))
    (λ e,
       print ("❌ Failed to download Indian market data: " +:+ exc_str e);;
       raise e).

(** [download_indian_market(self, start_date, end_date)] *)
Definition download_indian_market (start_date end_date : string) : M (DataFrame V) :=
  print ("Downloading Indian market (IRFC - Indian Railway Finance Corporation) data from "
         +:+ start_date +:+ " to " +:+ end_date +:+ "...");;
  download_market_data "IRFC" start_date end_date.

(** A call that may leave arguments out: each parameter left out takes
    the default of the [def] line. *)
Definition call_download_market_data (market_code start_date end_date : option string)
  : M (DataFrame V) :=
  download_market_data (default "IRFC" market_code)
                       (default "2005-01-01" start_date)
                       (default "2022-03-31" end_date).

Definition call_download_indian_market (start_date end_date : option string)
  : M (DataFrame V) :=
  download_indian_market (default "2005-01-01" start_date)
                         (default "2022-03-31" end_date).

(** [get_market_info(self)] *)
Definition get_market_info : M (gmap string (gmap string string)) :=
  mret {[ "IRFC" :=
            {[ "name" := "Indian Railway Finance Corporation Limited";
               "country" := "India";
               "symbol" := "IRFC.NS";
               "description" :=
                 "IRFC - Indian Railway Finance Corporation - Indian Market Focus" ]} ]}.

(** The block under [if __name__ == "__main__":].  [start_date] and
    [end_date] are the texts [strftime('%Y-%m-%d')] gives for the day 30
    days ago and for today; the clock is not modelled.  The dict has one
    entry, so the order of [items()] is not in question. *)
Definition main (start_date end_date : string) : M unit :=
  print "Testing Indian market data loading...";;
  print (nl +:+ "Indian Market (Paper-compliant focus):");;
  market_info ← get_market_info;
  for_each (map_to_list market_info) (λ '(code, info),
    name ← dict_getitem info "name";
    country ← dict_getitem info "country";
    symbol ← dict_getitem info "symbol";
    print ("  " +:+ code +:+ ": " +:+ name +:+ " (" +:+ country +:+ ") - " +:+ symbol));;
  print (nl +:+ "Testing sample data download (last 30 days)...");;
  try_except
    (sample_data ← download_market_data "RELIANCE" start_date end_date;
     print ("Sample data shape: " +:+ repr_pair (shape sample_data));;
     print ("Sample data columns: " +:+ repr_list (columns sample_data));;
     print "✅ Indian market data loader working correctly!")
    (λ e, print ("❌ Test failed: " +:+ exc_str e)).
End Methods.
End Loader.

(** ** The vocabulary of the specification, in terms of the code *)

Module Contract.
Import Python Pandas Loader.

(** The two validation failures are [ValueError]s, told apart by their
    message.  The code in them is always IRFC, the only key of
    [INDIAN_MARKET]. *)
Definition EmptyResultError : Exception :=
  ValueError "No data found for IRFC (IRFC.NS)".
Definition MissingFieldError : Exception :=
  ValueError "Missing required columns for IRFC".

(** The lines of the loader. *)
Definition warning (market_code : string) : Event :=
  Stdout ("Warning: Only IRFC (Indian) market supported. Using IRFC instead of "
          +:+ market_code).
Definition announcement (start_date end_date : string) : Event :=
  Stdout ("Downloading Indian market data (IRFC.NS) from "
          +:+ start_date +:+ " to " +:+ end_date +:+ "...").
Definition success_notice (rows : nat) : Event :=
  Stdout ("✓ Downloaded " +:+ str_of_nat rows +:+ " samples for Indian market (IRFC)").
Definition diagnostic (e : Exception) : Event :=
  Stdout ("❌ Failed to download Indian market data: " +:+ exc_str e).
Definition banner (start_date end_date : string) : Event :=
  Stdout ("Downloading Indian market (IRFC - Indian Railway Finance Corporation) data from "
          +:+ start_date +:+ " to " +:+ end_date +:+ "...").

(** The request the loader sends. *)
Definition request (start_date end_date : string) : Event :=
  ProviderCall "IRFC.NS" start_date end_date.

Section Frames.
Context {V : Type}.

(** The table after [data.columns = [col.lower() for col in data.columns]]. *)
Definition lowercased (df : DataFrame V) : DataFrame V :=
  mkDataFrame (index df) (zip (lower <$> columns df) (series df).*2).

(** What [data[required_cols]] selects from the lowercased table. *)
Definition selection (df : DataFrame V) : DataFrame V :=
  mkDataFrame (index df)
    (flat_map (λ k, columns_labelled k (lowercased df)) required_cols).

(** Some required field is absent after the names are lowercased. *)
Definition lacks_required_field (df : DataFrame V) : Prop :=
  ∃ col, col ∈ required_cols ∧ col ∉ lower <$> columns df.

(** All five are there. *)
Definition has_required_fields (df : DataFrame V) : Prop :=
  ∀ col, col ∈ required_cols → col ∈ lower <$> columns df.

(** How often a name occurs among the lowercased names of the table. *)
Definition occurrences (col : string) (df : DataFrame V) : nat :=
  length (List.filter (String.eqb col) (lower <$> columns df)).
End Frames.

(** The lines of the block under [__main__]: what it prints before the
    download, and after it. *)
Definition preamble : list Event :=
  [ Stdout "Testing Indian market data loading...";
    Stdout (nl +:+ "Indian Market (Paper-compliant focus):");
    Stdout "  IRFC: Indian Railway Finance Corporation Limited (India) - IRFC.NS";
    Stdout (nl +:+ "Testing sample data download (last 30 days)...") ].
Definition shape_line (rows cols : nat) : Event :=
  Stdout ("Sample data shape: " +:+ repr_pair (rows, cols)).
Definition columns_line (names : list string) : Event :=
  Stdout ("Sample data columns: " +:+ repr_list names).
Definition working_line : Event :=
  Stdout "✅ Indian market data loader working correctly!".
Definition test_failed (e : Exception) : Event :=
  Stdout ("❌ Test failed: " +:+ exc_str e).

(** The dates are in order and no date occurs twice. *)
Definition chronological (dates : list Z) : Prop := StronglySorted Z.lt dates.

#[global] Instance chronological_dec dates : Decision (chronological dates).
Proof.
  unfold chronological. induction dates as [|d dates IH].
  - left. constructor.
  - destruct IH as [IH|IH].
    + destruct (decide (Forall (Z.lt d) dates)) as [Hd|Hd].
      * left. by constructor.
      * right. intros H. by inversion H.
    + right. intros H. by inversion H.
Defined.
End Contract.

(** ** Stub providers, for the examples *)

Module Stubs.
Import Python Pandas.

Definition answer (df : DataFrame Z) : Provider (DataFrame Z) := λ _ _ _, Return df.
Definition failing (e : Exception) : Provider (DataFrame Z) := λ _ _ _, Raise e.

(** Six daily rows with the columns Open, High, Low, Close, Volume,
    Dividends. *)
Definition six_rows : DataFrame Z :=
  mkDataFrame [18262; 18263; 18264; 18267; 18268; 18269]%Z
    [ ("Open", [250; 251; 249; 252; 255; 254]%Z);
      ("High", [253; 252; 252; 256; 257; 255]%Z);
      ("Low", [249; 248; 247; 251; 253; 251]%Z);
      ("Close", [251; 249; 251; 255; 254; 252]%Z);
      ("Volume", [1000; 1200; 900; 1500; 1100; 1300]%Z);
      ("Dividends", [0; 0; 0; 0; 0; 0]%Z) ].

(** No rows at all; and no rows and no required field either. *)
Definition zero_rows : DataFrame Z :=
  mkDataFrame []
    [ ("Open", []); ("High", []); ("Low", []); ("Close", []); ("Volume", []) ].
Definition zero_rows_no_fields : DataFrame Z := mkDataFrame [] [ ("Dividends", []) ].

(** Rows, but no volume. *)
Definition no_volume : DataFrame Z :=
  mkDataFrame [18262; 18263]%Z
    [ ("Open", [250; 251]%Z); ("High", [253; 252]%Z);
      ("Low", [249; 248]%Z); ("Close", [251; 249]%Z) ].

(** Two columns whose names differ by case only. *)
Definition close_twice : DataFrame Z :=
  mkDataFrame [18262; 18263]%Z
    [ ("Open", [250; 251]%Z); ("High", [253; 252]%Z); ("Low", [249; 248]%Z);
      ("Close", [251; 249]%Z); ("close", [2510; 2490]%Z);
      ("Volume", [1000; 1200]%Z) ].

(** The volume under two spellings. *)
Definition volume_twice : DataFrame Z :=
  mkDataFrame [18262]%Z
    [ ("Open", [250]%Z); ("High", [253]%Z); ("Low", [249]%Z); ("Close", [251]%Z);
      ("Volume", [1000]%Z); ("VOLUME", [1]%Z) ].

(** The six rows again, with the names in capitals and the columns in
    another order. *)
Definition six_rows_shouting : DataFrame Z :=
  mkDataFrame [18262; 18263; 18264; 18267; 18268; 18269]%Z
    [ ("OPEN", [250; 251; 249; 252; 255; 254]%Z);
      ("HIGH", [253; 252; 252; 256; 257; 255]%Z);
      ("LOW", [249; 248; 247; 251; 253; 251]%Z);
      ("CLOSE", [251; 249; 251; 255; 254; 252]%Z);
      ("VOLUME", [1000; 1200; 900; 1500; 1100; 1300]%Z);
      ("DIVIDENDS", [0; 0; 0; 0; 0; 0]%Z) ].
Definition six_rows_shuffled : DataFrame Z :=
  mkDataFrame [18262; 18263; 18264; 18267; 18268; 18269]%Z
    [ ("Volume", [1000; 1200; 900; 1500; 1100; 1300]%Z);
      ("Dividends", [0; 0; 0; 0; 0; 0]%Z);
      ("Close", [251; 249; 251; 255; 254; 252]%Z);
      ("Open", [250; 251; 249; 252; 255; 254]%Z);
      ("Low", [249; 248; 247; 251; 253; 251]%Z);
      ("High", [253; 252; 252; 256; 257; 255]%Z) ].

(** Rows, and no column at all. *)
Definition rows_only : DataFrame Z := mkDataFrame [18262; 18263]%Z [].

(** A provider that knows IRFC.NS only. *)
Definition only_IRFC (df : DataFrame Z) : Provider (DataFrame Z) :=
  λ symbol _ _,
    if String.eqb symbol "IRFC.NS" then Return df
    else Raise (mkException "YFTickerMissingError" "no such ticker").

(** The later day first. *)
Definition latest_first : DataFrame Z :=
  mkDataFrame [18263; 18262]%Z
    [ ("Open", [251; 250]%Z); ("High", [252; 253]%Z); ("Low", [248; 249]%Z);
      ("Close", [249; 251]%Z); ("Volume", [1200; 1000]%Z) ].

(** The same day twice. *)
Definition same_day_twice : DataFrame Z :=
  mkDataFrame [18262; 18262]%Z
    [ ("Open", [250; 250]%Z); ("High", [253; 253]%Z); ("Low", [249; 249]%Z);
      ("Close", [251; 251]%Z); ("Volume", [1000; 1000]%Z) ].

Definition timeout_error : Exception := mkException "ConnectionError" "timed out".
End Stubs.

(** ** How a call of the loader runs *)

Module Facts.
Import Python Pandas Loader Contract.

Section Run.
Context {V : Type}.
Implicit Types (p : Provider (DataFrame V)) (df : DataFrame V).

Lemma columns_lowercased df : columns (lowercased df) = lower <$> columns df.
Proof.
  unfold columns, lowercased; simpl.
  apply fst_zip. by rewrite !length_fmap.
Qed.

Lemma set_columns_lower df :
  set_columns (lower <$> columns df) df = Return (lowercased df).
Proof.
  unfold set_columns, columns.
  by rewrite !length_fmap, Nat.eqb_refl.
Qed.

Lemma has_column_true col df : has_column col df = true ↔ col ∈ columns df.
Proof. unfold has_column. apply bool_decide_eq_true. Qed.

Lemma all_required_true df :
  all (λ col, has_column col (lowercased df)) required_cols = true
  ↔ has_required_fields df.
Proof.
  unfold all, has_required_fields.
  rewrite forallb_forall. setoid_rewrite has_column_true.
  setoid_rewrite columns_lowercased. by setoid_rewrite <- list_elem_of_In.
Qed.

Lemma all_required_false df :
  all (λ col, has_column col (lowercased df)) required_cols = false
  ↔ lacks_required_field df.
Proof.
  rewrite <- not_true_iff_false, all_required_true.
  unfold has_required_fields, lacks_required_field.
  rewrite <- Forall_forall. split.
  - intros Hn. apply not_Forall_Exists in Hn; [|apply _].
    apply Exists_exists in Hn as (col & Hin & Hout). by exists col.
  - intros (col & Hin & Hout) Hall.
    rewrite Forall_forall in Hall. by apply Hout, Hall.
Qed.

Lemma getitem_list_present keys df :
  (∀ k, k ∈ keys → k ∈ columns df) →
  getitem_list keys df
  = Return (mkDataFrame (index df) (flat_map (λ k, columns_labelled k df) keys)).
Proof.
  intros Hall. unfold getitem_list.
  destruct (List.find _ keys) as [k|] eqn:Hfind; [|done].
  apply find_some in Hfind as [Hin Hneg].
  apply list_elem_of_In, Hall, has_column_true in Hin.
  by rewrite Hin in Hneg.
Qed.

Lemma contains_IRFC : dict_contains "IRFC" INDIAN_MARKET = true.
Proof.
  unfold dict_contains, INDIAN_MARKET.
  apply bool_decide_eq_true. rewrite lookup_singleton_eq. by eexists.
Qed.

Lemma contains_only_IRFC code :
  dict_contains code INDIAN_MARKET = false ↔ INDIAN_MARKET !! code = None.
Proof.
  unfold dict_contains. rewrite bool_decide_eq_false.
  by rewrite <- eq_None_not_Some.
Qed.

Lemma supported_is_IRFC code :
  INDIAN_MARKET !! code ≠ None ↔ code = "IRFC".
Proof.
  unfold INDIAN_MARKET. rewrite lookup_singleton_None. split.
  - intros H. destruct (decide ("IRFC" = code)); [done|]. by destruct H.
  - by intros -> ?.
Qed.

Lemma getitem_IRFC :
  dict_getitem (R:=DataFrame V) INDIAN_MARKET "IRFC" = mret "IRFC.NS".
Proof. unfold dict_getitem, INDIAN_MARKET. by rewrite lookup_singleton_eq. Qed.

(** A call for IRFC, by cases on the answer of the provider. *)
Lemma run_download_IRFC p s e :
  run (download_market_data "IRFC" s e) p =
  match p "IRFC.NS" s e with
  | Raise exn => ([announcement s e; request s e; diagnostic exn], Raise exn)
  | Return df =>
      if empty df then
        ([announcement s e; request s e; diagnostic EmptyResultError],
         Raise EmptyResultError)
      else if all (λ col, has_column col (lowercased df)) required_cols then
        ([announcement s e; request s e; success_notice (len df)],
         Return (selection df))
      else
        ([announcement s e; request s e; diagnostic MissingFieldError],
         Raise MissingFieldError)
  end.
Proof.
  unfold run, download_market_data, mbind, Py_bind, py_bind.
  rewrite contains_IRFC; cbn [negb].
  unfold mret at 1; unfold Py_ret, py_ret at 1; cbn beta iota.
  rewrite getitem_IRFC.
  unfold mret, Py_ret, py_ret, try_except, history, print, raise, lift.
  simpl.
  destruct (p "IRFC.NS" s e) as [df|exn]; [|done].
  destruct (empty df); [done|].
  rewrite set_columns_lower.
  destruct (all _ required_cols) eqn:Hall; simpl; [|done].
  rewrite getitem_list_present; [done|].
  rewrite columns_lowercased. by apply all_required_true in Hall.
Qed.

(** A call for an unsupported code: the warning, then the call for IRFC. *)
Lemma run_download_unsupported p code s e :
  INDIAN_MARKET !! code = None →
  run (download_market_data code s e) p =
  let '(log, o) := run (download_market_data "IRFC" s e) p in
  (warning code :: log, o).
Proof.
  intros Hcode. apply contains_only_IRFC in Hcode.
  unfold run, download_market_data, mbind, Py_bind, py_bind.
  rewrite Hcode, contains_IRFC; cbn [negb].
  unfold print at 1; unfold mret at 1 2; unfold Py_ret, py_ret; cbn beta iota.
  match goal with
  | |- (let '(_, _) := ?rest in _) = _ => by destruct rest
  end.
Qed.

(** Any call, in terms of the call for IRFC. *)
Lemma run_download p code s e :
  run (download_market_data code s e) p =
  let '(log, o) := run (download_market_data "IRFC" s e) p in
  ((if dict_contains code INDIAN_MARKET then [] else [warning code]) ++ log, o).
Proof.
  destruct (dict_contains code INDIAN_MARKET) eqn:Hcode.
  - assert (code = "IRFC") as ->.
    { apply supported_is_IRFC. intros Hnone.
      apply contains_only_IRFC in Hnone. congruence. }
    by destruct (run _ p).
  - apply contains_only_IRFC in Hcode.
    by rewrite run_download_unsupported.
Qed.

(** The outcome of a call does not depend on the code. *)
Lemma outcome_download p code s e :
  (run (download_market_data code s e) p).2
  = (run (download_market_data "IRFC" s e) p).2.
Proof. rewrite run_download. by destruct (run _ p). Qed.

(** The wrapper prints its line and calls for IRFC. *)
Lemma run_download_indian_market p s e :
  run (download_indian_market s e) p =
  let '(log, o) := run (download_market_data "IRFC" s e) p in
  (banner s e :: log, o).
Proof.
  unfold download_indian_market, run, mbind, Py_bind, py_bind, print.
  by destruct (download_market_data "IRFC" s e p) as [log [out|exn]].
Qed.

(** *** What the selection holds *)

Lemma series_lowercased df :
  series (lowercased df) = (λ c, (lower c.1, c.2)) <$> series df.
Proof.
  unfold lowercased, columns; simpl.
  induction (series df) as [|[name cells] l IH]; [done|].
  rewrite !fmap_cons; simpl. by f_equal.
Qed.

Lemma labels_of_filter (k : string) (l : list (string * list V)) :
  (List.filter (λ c, String.eqb c.1 k) l).*1
  = List.filter (λ name, String.eqb name k) l.*1.
Proof.
  induction l as [|[name cells] l IH]; csimpl; [done|].
  destruct (String.eqb name k); csimpl; by rewrite IH.
Qed.

Lemma filter_label_replicate (k : string) (names : list string) :
  List.filter (λ name, String.eqb name k) names
  = replicate (length (List.filter (String.eqb k) names)) k.
Proof.
  induction names as [|name names IH]; simpl; [done|].
  rewrite (String.eqb_sym k name).
  destruct (String.eqb_spec name k) as [->|_]; simpl; by rewrite IH.
Qed.

Lemma labels_of_columns_labelled k df :
  (columns_labelled k (lowercased df)).*1 = replicate (occurrences k df) k.
Proof.
  unfold columns_labelled, occurrences.
  rewrite labels_of_filter, filter_label_replicate.
  by rewrite <- columns_lowercased.
Qed.

(** The selection has, for each required name in turn, as many columns
    of that name as the lowercased table has. *)
Lemma columns_selection df :
  columns (selection df)
  = flat_map (λ k, replicate (occurrences k df) k) required_cols.
Proof.
  unfold columns, selection, required_cols; simpl.
  rewrite !fmap_app, !labels_of_columns_labelled. done.
Qed.

Lemma occurrences_pos col df :
  col ∈ lower <$> columns df ↔ 0 < occurrences col df.
Proof.
  unfold occurrences.
  induction (lower <$> columns df) as [|name names IH]; simpl.
  - split; [by intros ?%elem_of_nil | lia].
  - rewrite elem_of_cons, IH.
    destruct (String.eqb_spec col name) as [->|Hne]; simpl.
    * split; [lia | by left].
    * split; [by intros [?|?] | by right].
Qed.

(** Every column of the selection is a column of the answer, under its
    lowercased name. *)
Lemma cells_selection df col cells :
  (col, cells) ∈ series (selection df) →
  ∃ name, lower name = col ∧ (name, cells) ∈ series df.
Proof.
  unfold selection; cbn [series]. rewrite list_elem_of_In, in_flat_map.
  intros (k & _ & Hin). unfold columns_labelled in Hin.
  apply filter_In in Hin as [Hin _].
  rewrite series_lowercased in Hin.
  apply list_elem_of_In, list_elem_of_fmap in Hin as ([name cells'] & Heq & Hin).
  simpl in Heq. injection Heq as -> ->. by exists name.
Qed.

(** The columns of the selection are those of the answer that lowercase
    to a required name: none of them is lost. *)
Lemma selection_complete df name cells :
  (name, cells) ∈ series df → lower name ∈ required_cols →
  (lower name, cells) ∈ series (selection df).
Proof.
  intros Hin Hreq. unfold selection; cbn [series].
  rewrite list_elem_of_In, in_flat_map. exists (lower name). split.
  - by apply list_elem_of_In.
  - unfold columns_labelled. apply filter_In. split.
    + rewrite series_lowercased. apply list_elem_of_In, list_elem_of_fmap.
      by exists (name, cells).
    + simpl. apply String.eqb_refl.
Qed.

(** A successful call, read backwards. *)
Lemma returned_inv p code s e out :
  (run (download_market_data code s e) p).2 = Return out →
  ∃ df, p "IRFC.NS" s e = Return df ∧ empty df = false
        ∧ has_required_fields df ∧ out = selection df.
Proof.
  rewrite outcome_download, run_download_IRFC.
  destruct (p "IRFC.NS" s e) as [df|exn]; [|done].
  destruct (empty df) eqn:Hempty; [done|].
  destruct (all _ required_cols) eqn:Hall; [|done].
  simpl. intros [= <-]. exists df. by rewrite <- all_required_true.
Qed.

(** The selection of a well-formed table is well-formed. *)
Lemma well_formed_selection df : well_formed df → well_formed (selection df).
Proof.
  unfold well_formed. rewrite !Forall_forall.
  intros Hwf [col cells] Hin.
  apply cells_selection in Hin as (name & _ & Hin).
  apply (Hwf (name, cells) Hin).
Qed.

(** pandas calls a table with rows and no column empty, and so does the
    loader: such an answer ends in the "No data found" error. *)
Lemma no_columns_is_empty p code s e df :
  p "IRFC.NS" s e = Return df → series df = [] →
  (run (download_market_data code s e) p).2 = Raise EmptyResultError.
Proof.
  intros Hp Hnil. rewrite outcome_download, run_download_IRFC, Hp.
  unfold empty, columns. rewrite Hnil. simpl. by rewrite orb_true_r.
Qed.

Lemma not_empty_rows df : empty df = false → 0 < len df.
Proof.
  unfold empty, len. intros [H _]%orb_false_elim.
  apply Nat.eqb_neq in H. lia.
Qed.
End Run.
End Facts.


(** ** Properties of the loader *)

Import Python Pandas Loader Contract Facts.



(** C2.  When the provider answers with a table of zero rows, the call
    raises the "No data found" error and returns no table, whatever the
    columns of the answer are: the test for emptiness comes first, so the
    error is never the "Missing required columns" one. *)
Theorem zero_rows_raise_EmptyResultError
    {V : Type} (p : Provider (DataFrame V)) (code start_date end_date : string)
    (df : DataFrame V) :
  p "IRFC.NS" start_date end_date = Return df →
  len df = 0 →
  (run (download_market_data code start_date end_date) p).2 = Raise EmptyResultError
  ∧ (run (download_market_data code start_date end_date) p).2 ≠ Raise MissingFieldError.
Proof.
  intros Hp Hlen. rewrite outcome_download, run_download_IRFC, Hp.
  unfold empty. unfold len in Hlen. rewrite Hlen. simpl. by split.
Qed.

Lemma zero_rows_raise_EmptyResultError_witness :
  lacks_required_field Stubs.zero_rows_no_fields
  ∧ (run (download_market_data "IRFC" "2099-01-01" "2099-01-10")
         (Stubs.answer Stubs.zero_rows_no_fields)).2 = Raise EmptyResultError
  ∧ (run (download_market_data "IRFC" "2099-01-01" "2099-01-10")
         (Stubs.answer Stubs.zero_rows_no_fields)).2 ≠ Raise MissingFieldError.
Proof.
  split.
  - apply all_required_false. reflexivity.
  - apply (zero_rows_raise_EmptyResultError
             (Stubs.answer Stubs.zero_rows_no_fields) "IRFC" "2099-01-01" "2099-01-10"
             Stubs.zero_rows_no_fields); reflexivity.
Defined.

(** C3, as stated, fails: an answer with two rows and no column at all has
    rows and lacks every required field, and the call raises the "No data
    found" error, not the "Missing required columns" one: for pandas a table
    without columns is empty too. *)
Lemma rows_only_is_not_a_MissingFieldError :
  0 < len Stubs.rows_only
  ∧ lacks_required_field Stubs.rows_only
  ∧ (run (download_market_data "IRFC" "2020-01-01" "2020-01-10")
         (Stubs.answer Stubs.rows_only)).2 = Raise EmptyResultError
  ∧ (run (download_market_data "IRFC" "2020-01-01" "2020-01-10")
         (Stubs.answer Stubs.rows_only)).2 ≠ Raise MissingFieldError.
Proof.
  split; [unfold len; simpl; lia|].
  split; [apply all_required_false; reflexivity|].
  split; [reflexivity | discriminate].
Qed.

(** C3, amended.  When the provider answers with a table that has at least
    one row and at least one column and, with its column names lowercased,
    lacks one of open, high, low, close, volume, the call raises the "Missing
    required columns" error and returns no table. *)
Theorem missing_field_raise_MissingFieldError
    {V : Type} (p : Provider (DataFrame V)) (code start_date end_date : string)
    (df : DataFrame V) :
  p "IRFC.NS" start_date end_date = Return df →
  0 < len df →
  0 < length (columns df) →
  lacks_required_field df →
  (run (download_market_data code start_date end_date) p).2 = Raise MissingFieldError.
Proof.
  intros Hp Hrows Hcols Hlacks. apply all_required_false in Hlacks.
  assert (empty df = false) as Hempty.
  { unfold empty, len in *. apply orb_false_intro; apply Nat.eqb_neq; lia. }
  by rewrite outcome_download, run_download_IRFC, Hp, Hempty, Hlacks.
Qed.

Lemma missing_field_raise_MissingFieldError_witness :
  (run (download_market_data "IRFC" "2020-01-01" "2020-01-10")
       (Stubs.answer Stubs.no_volume)).2 = Raise MissingFieldError.
Proof.
  apply (missing_field_raise_MissingFieldError
           (Stubs.answer Stubs.no_volume) "IRFC" "2020-01-01" "2020-01-10" Stubs.no_volume).
  - reflexivity.
  - unfold len. simpl. lia.
  - simpl. lia.
  - apply all_required_false. reflexivity.
Defined.

(** C4, as stated, fails: with the columns Open, High, Low, Close, close,
    Volume the table is not empty and has all five names once lowercased,
    and the call returns six columns, close twice. *)
Lemma close_twice_returns_six_columns :
  empty Stubs.close_twice = false
  ∧ has_required_fields Stubs.close_twice
  ∧ ∃ out,
      (run (download_market_data "IRFC" "2020-01-01" "2020-01-10")
           (Stubs.answer Stubs.close_twice)).2 = Return out
      ∧ columns out = ["open"; "high"; "low"; "close"; "close"; "volume"]
      ∧ columns out ≠ required_cols.
Proof.
  split; [reflexivity|]. split; [by apply all_required_true|].
  eexists. split; [reflexivity|]. split; [reflexivity|]. discriminate.
Qed.

(** C4, amended.  When the provider answers with a table that is not empty
    and each of open, high, low, close, volume occurs exactly once among its
    lowercased column names, the call returns a table whose columns are
    exactly these five, in this order; every other column of the answer is
    dropped, each column kept has the cells the provider gave it, and the
    rows (their number and their dates) are those of the answer. *)
Theorem required_fields_once_return_five_columns
    {V : Type} (p : Provider (DataFrame V)) (code start_date end_date : string)
    (df : DataFrame V) :
  p "IRFC.NS" start_date end_date = Return df →
  empty df = false →
  (∀ col, col ∈ required_cols → occurrences col df = 1) →
  ∃ out,
    (run (download_market_data code start_date end_date) p).2 = Return out
    ∧ columns out = required_cols
    ∧ len out = len df
    ∧ index out = index df
    ∧ ∀ col cells, (col, cells) ∈ series out →
        ∃ name, lower name = col ∧ (name, cells) ∈ series df.
Proof.
  intros Hp Hempty Honce.
  assert (has_required_fields df) as Hall.
  { intros col Hcol. apply occurrences_pos. rewrite (Honce col Hcol). lia. }
  apply all_required_true in Hall.
  exists (selection df). split; [|split; [|split; [|split]]].
  - by rewrite outcome_download, run_download_IRFC, Hp, Hempty, Hall.
  - rewrite columns_selection. unfold required_cols in *. simpl.
    rewrite !Honce by (repeat constructor). done.
  - done.
  - done.
  - apply cells_selection.
Qed.

Lemma required_fields_once_return_five_columns_witness :
  ∃ out,
    (run (download_market_data "IRFC" "2020-01-01" "2020-01-10")
         (Stubs.answer Stubs.six_rows)).2 = Return out
    ∧ columns out = required_cols
    ∧ len out = len Stubs.six_rows
    ∧ index out = index Stubs.six_rows
    ∧ ∀ col cells, (col, cells) ∈ series out →
        ∃ name, lower name = col ∧ (name, cells) ∈ series Stubs.six_rows.
Proof.
  apply (required_fields_once_return_five_columns
           (Stubs.answer Stubs.six_rows) "IRFC" "2020-01-01" "2020-01-10" Stubs.six_rows).
  - reflexivity.
  - reflexivity.
  - intros col Hcol. unfold required_cols in Hcol.
    repeat (apply elem_of_cons in Hcol as [->|Hcol]; [reflexivity|]).
    by apply elem_of_nil in Hcol.
Defined.

(** C5, as stated, fails: with the volume given as Volume and as VOLUME the
    call returns a table of six columns, not of exactly the five. *)
Lemma volume_twice_returns_six_columns :
  ∃ out,
    (run (download_market_data "IRFC" "2020-01-01" "2020-01-10")
         (Stubs.answer Stubs.volume_twice)).2 = Return out
    ∧ columns out = ["open"; "high"; "low"; "close"; "volume"; "volume"]
    ∧ length (columns out) ≠ 5.
Proof.
  eexists. split; [reflexivity|]. split; [reflexivity|]. discriminate.
Qed.

(** C5, amended.  Every table a call returns has at least one row, and its
    columns are open, high, low, close, volume in this order, in lowercase,
    each as often as it occurs among the lowercased column names of the
    provider's answer, and at least once; so the columns are exactly the
    five when no required name occurs twice.  Such a table is returned only
    for an answer that is not empty and has all five names: an answer with
    zero rows, or without one of the five, ends in an error. *)
Theorem returned_table_shape
    {V : Type} (p : Provider (DataFrame V)) (code start_date end_date : string)
    (out : DataFrame V) :
  (run (download_market_data code start_date end_date) p).2 = Return out →
  ∃ df,
    p "IRFC.NS" start_date end_date = Return df
    ∧ 0 < len df ∧ has_required_fields df
    ∧ 0 < len out ∧ empty out = false
    ∧ columns out = flat_map (λ k, replicate (occurrences k df) k) required_cols
    ∧ (∀ col, col ∈ required_cols → 0 < occurrences col df)
    ∧ (∀ col, col ∈ columns out ↔ col ∈ required_cols)
    ∧ ((∀ col, col ∈ required_cols → occurrences col df = 1) →
       columns out = required_cols).
Proof.
  intros (df & Hp & Hempty & Hall & ->)%returned_inv.
  assert (∀ col, col ∈ required_cols → 0 < occurrences col df) as Hpos.
  { intros col Hcol. by apply occurrences_pos, Hall. }
  assert (∀ col, col ∈ columns (selection df) ↔ col ∈ required_cols) as Hcols.
  { intros col. rewrite columns_selection, list_elem_of_In, in_flat_map. split.
    - intros (k & Hk & Hin). apply list_elem_of_In, elem_of_replicate in Hin as [-> _].
      by apply list_elem_of_In.
    - intros Hcol. exists col. split; [by apply list_elem_of_In|].
      apply list_elem_of_In, elem_of_replicate. split; [done|].
      specialize (Hpos col Hcol). lia. }
  exists df. split_and!.
  - done.
  - by apply not_empty_rows.
  - done.
  - by apply (not_empty_rows df).
  - unfold empty. apply orb_false_intro.
    + apply Nat.eqb_neq. apply not_empty_rows in Hempty.
      unfold len, selection in *. simpl. lia.
    + apply Nat.eqb_neq. intros Hnil. apply length_zero_iff_nil in Hnil.
      assert ("open" ∈ columns (selection df)) as Hopen.
      { apply Hcols. unfold required_cols. by left. }
      rewrite Hnil in Hopen. by apply elem_of_nil in Hopen.
  - apply columns_selection.
  - done.
  - done.
  - intros Honce. rewrite columns_selection. unfold required_cols in *. simpl.
    rewrite !Honce by (repeat constructor). done.
Qed.

Lemma returned_table_shape_witness :
  ∃ df,
    Stubs.answer Stubs.volume_twice "IRFC.NS" "2020-01-01" "2020-01-10" = Return df
    ∧ 0 < len df ∧ has_required_fields df
    ∧ 0 < len (selection Stubs.volume_twice)
    ∧ empty (selection Stubs.volume_twice) = false
    ∧ columns (selection Stubs.volume_twice)
      = flat_map (λ k, replicate (occurrences k df) k) required_cols
    ∧ (∀ col, col ∈ required_cols → 0 < occurrences col df)
    ∧ (∀ col, col ∈ columns (selection Stubs.volume_twice) ↔ col ∈ required_cols)
    ∧ ((∀ col, col ∈ required_cols → occurrences col df = 1) →
       columns (selection Stubs.volume_twice) = required_cols).
Proof.
  apply (returned_table_shape
           (Stubs.answer Stubs.volume_twice) "IRFC" "2020-01-01" "2020-01-10"
           (selection Stubs.volume_twice)).
  reflexivity.
Defined.

(** C7, as stated, fails: the call succeeds on an answer whose rows are not in
    order of date, and on one with the same date twice, and returns the rows
    as they came. *)
Lemma unordered_dates_are_returned :
  (∃ out,
     (run (download_market_data "IRFC" "2020-01-01" "2020-01-03")
          (Stubs.answer Stubs.latest_first)).2 = Return out
     ∧ index out = [18263; 18262]%Z
     ∧ ¬ chronological (index out))
  ∧ (∃ out,
       (run (download_market_data "IRFC" "2020-01-01" "2020-01-03")
            (Stubs.answer Stubs.same_day_twice)).2 = Return out
       ∧ index out = [18262; 18262]%Z
       ∧ ¬ NoDup (index out)).
Proof.
  split; eexists; (split; [reflexivity|]); (split; [reflexivity|]); simpl.
  - intros H. inversion H as [|? ? _ Hlt]; subst.
    inversion Hlt as [|? ? Hlt' _]; subst. lia.
  - intros H. apply NoDup_cons in H as [Hin _]. apply Hin. by left.
Qed.

(** C7, amended.  Every table a call returns has the dates of the provider's
    answer, in the order of the answer: the loader neither sorts the rows nor
    drops a repeated date.  So the table returned is in order of date, with
    unique and strictly increasing dates, exactly when the answer is. *)
Theorem returned_dates_are_the_providers
    {V : Type} (p : Provider (DataFrame V)) (code start_date end_date : string)
    (out : DataFrame V) :
  (run (download_market_data code start_date end_date) p).2 = Return out →
  ∃ df,
    p "IRFC.NS" start_date end_date = Return df
    ∧ index out = index df
    ∧ (chronological (index out) ↔ chronological (index df))
    ∧ (NoDup (index out) ↔ NoDup (index df)).
Proof.
  intros (df & Hp & _ & _ & ->)%returned_inv.
  by exists df.
Qed.

Lemma returned_dates_are_the_providers_witness :
  ∃ df,
    Stubs.answer Stubs.six_rows "IRFC.NS" "2020-01-01" "2020-01-10" = Return df
    ∧ index (selection Stubs.six_rows) = index df
    ∧ (chronological (index (selection Stubs.six_rows)) ↔ chronological (index df))
    ∧ (NoDup (index (selection Stubs.six_rows)) ↔ NoDup (index df)).
Proof.
  apply (returned_dates_are_the_providers
           (Stubs.answer Stubs.six_rows) "RELIANCE" "2020-01-01" "2020-01-10"
           (selection Stubs.six_rows)).
  reflexivity.
Defined.

(** C8.  A call asks the provider exactly once, whatever happens (no
    retry).  When the provider raises, the call raises that very exception;
    when a call raises, the exception is the provider's own or one of the
    two validation errors, and the last line printed is the diagnostic with
    the text of that exception.  A call returns a table only when the
    provider answered with a table that passes both checks: no failure is
    turned into a result. *)
Theorem failures_propagate_unmodified
    {V : Type} (p : Provider (DataFrame V)) (code start_date end_date : string) :
  provider_calls (run (download_market_data code start_date end_date) p).1
  = [request start_date end_date]
  ∧ (∀ exn, p "IRFC.NS" start_date end_date = Raise exn →
       (run (download_market_data code start_date end_date) p).2 = Raise exn)
  ∧ match (run (download_market_data code start_date end_date) p).2 with
    | Raise exn =>
        last (run (download_market_data code start_date end_date) p).1
        = Some (diagnostic exn)
        ∧ (p "IRFC.NS" start_date end_date = Raise exn
           ∨ ∃ df, p "IRFC.NS" start_date end_date = Return df
                   ∧ (empty df = true ∧ exn = EmptyResultError
                      ∨ empty df = false ∧ lacks_required_field df
                        ∧ exn = MissingFieldError))
    | Return out =>
        ∃ df, p "IRFC.NS" start_date end_date = Return df
              ∧ empty df = false ∧ has_required_fields df
    end.
Proof.
  rewrite run_download, run_download_IRFC.
  destruct (p "IRFC.NS" start_date end_date) as [df|exn] eqn:Hp.
  - destruct (empty df) eqn:Hempty; [|destruct (all _ required_cols) eqn:Hall].
    + destruct (dict_contains code INDIAN_MARKET); simpl;
        (split_and!; [done | done | done | right; exists df; by eauto]).
    + apply all_required_true in Hall.
      destruct (dict_contains code INDIAN_MARKET); simpl;
        (split_and!; [done | done | by exists df]).
    + apply all_required_false in Hall.
      destruct (dict_contains code INDIAN_MARKET); simpl;
        (split_and!; [done | done | done | right; exists df; by eauto]).
  - destruct (dict_contains code INDIAN_MARKET); simpl;
      (split_and!; [done | by intros ? [= <-] | done | by left]).
Qed.

Lemma failures_propagate_unmodified_witness :
  (run (download_market_data "RELIANCE" "2020-01-01" "2020-01-10")
       (Stubs.failing Stubs.timeout_error)).2 = Raise Stubs.timeout_error.
Proof.
  apply (failures_propagate_unmodified
           (Stubs.failing Stubs.timeout_error) "RELIANCE" "2020-01-01" "2020-01-10").
  reflexivity.
Defined.

(** C9.  [download_indian_market(start_date, end_date)] ends as
    [download_market_data("IRFC", start_date, end_date)] ends, with the same
    table or the same exception, for every provider; it sends the same one
    request, and prints one line more, first. *)
Theorem download_indian_market_is_download_IRFC
    {V : Type} (p : Provider (DataFrame V)) (start_date end_date : string) :
  (run (download_indian_market start_date end_date) p).2
  = (run (download_market_data "IRFC" start_date end_date) p).2
  ∧ (run (download_indian_market start_date end_date) p).1
    = banner start_date end_date
        :: (run (download_market_data "IRFC" start_date end_date) p).1
  ∧ provider_calls (run (download_indian_market start_date end_date) p).1
    = provider_calls (run (download_market_data "IRFC" start_date end_date) p).1.
Proof.
  rewrite run_download_indian_market.
  by destruct (run _ p) as [log o].
Qed.

(** C10.  In a call of [download_market_data] every argument that is given
    is used and every one left out takes its default: "IRFC" for the code,
    "2005-01-01" for the start and "2022-03-31" for the end; so the call
    without arguments is the call with these three.  [download_indian_market]
    has the same two dates as defaults, and without arguments it ends as
    [download_market_data] without arguments ends. *)
Theorem omitted_arguments_take_defaults {V : Type} :
  (∀ market_code start_date end_date : option string,
     call_download_market_data (V:=V) market_code start_date end_date
     = download_market_data
         (match market_code with Some code => code | None => "IRFC" end)
         (match start_date with Some date => date | None => "2005-01-01" end)
         (match end_date with Some date => date | None => "2022-03-31" end))
  ∧ call_download_market_data (V:=V) None None None
    = download_market_data "IRFC" "2005-01-01" "2022-03-31"
  ∧ (∀ start_date end_date : option string,
       call_download_indian_market (V:=V) start_date end_date
       = download_indian_market
           (match start_date with Some date => date | None => "2005-01-01" end)
           (match end_date with Some date => date | None => "2022-03-31" end))
  ∧ call_download_indian_market (V:=V) None None
    = download_indian_market "2005-01-01" "2022-03-31"
  ∧ (∀ (p : Provider (DataFrame V)) (start_date end_date : option string),
       (run (call_download_indian_market start_date end_date) p).2
       = (run (call_download_market_data None start_date end_date) p).2
       ∧ (run (call_download_indian_market start_date end_date) p).2
         = (run (call_download_market_data (Some "IRFC") start_date end_date) p).2).
Proof.
  split_and!.
  - by intros [code|] [start_date|] [end_date|].
  - done.
  - by intros [start_date|] [end_date|].
  - done.
  - intros p start_date end_date.
    unfold call_download_indian_market, call_download_market_data; simpl.
    rewrite run_download_indian_market. by destruct (run _ p) as [log o].
Qed.

(** C6.  [get_market_info] returns a dict with exactly one entry, under the
    key IRFC, the only key of [INDIAN_MARKET]; its descriptor has a name, a
    country, a symbol (the provider symbol of [INDIAN_MARKET]) and a
    description, none of them empty.  The call prints nothing and sends no
    request, whatever the provider would do, and a second call gives the
    same dict. *)
Theorem get_market_info_is_pure {V : Type} (p : Provider (DataFrame V)) :
  ∃ info descriptor name country symbol description,
    run get_market_info p = ([], Return info)
    ∧ run (a ← get_market_info; b ← get_market_info; mret (a, b)) p
      = ([], Return (info, info))
    ∧ size info = 1
    ∧ dom info = dom INDIAN_MARKET
    ∧ info !! "IRFC" = Some descriptor
    ∧ descriptor !! "name" = Some name ∧ name ≠ ""
    ∧ descriptor !! "country" = Some country ∧ country ≠ ""
    ∧ descriptor !! "symbol" = Some symbol ∧ symbol ≠ ""
    ∧ INDIAN_MARKET !! "IRFC" = Some symbol
    ∧ descriptor !! "description" = Some description ∧ description ≠ "".
Proof.
  do 6 eexists. split_and!.
  - reflexivity.
  - reflexivity.
  - apply map_size_singleton.
  - unfold INDIAN_MARKET. by rewrite !dom_singleton_L.
  - apply lookup_singleton_eq.
  - by simplify_map_eq.
  - done.
  - by simplify_map_eq.
  - done.
  - by simplify_map_eq.
  - done.
  - by simplify_map_eq.
  - by simplify_map_eq.
  - done.
Qed.

(** ** The two scenarios of the specification *)

(** Six rows with Open, High, Low, Close, Volume, Dividends: six rows come
    back, with the five lowercase columns, and Dividends is dropped. *)
Example six_rows_scenario :
  run (download_market_data "IRFC" "2020-01-01" "2020-01-10") (Stubs.answer Stubs.six_rows)
  = ([ announcement "2020-01-01" "2020-01-10"; request "2020-01-01" "2020-01-10";
       success_notice 6 ],
     Return (mkDataFrame (index Stubs.six_rows)
               [ ("open", [250; 251; 249; 252; 255; 254]%Z);
                 ("high", [253; 252; 252; 256; 257; 255]%Z);
                 ("low", [249; 248; 247; 251; 253; 251]%Z);
                 ("close", [251; 249; 251; 255; 254; 252]%Z);
                 ("volume", [1000; 1200; 900; 1500; 1100; 1300]%Z) ])).
Proof. reflexivity. Qed.

(** No rows: the call fails with the "No data found" error, after the
    diagnostic line. *)
Example zero_rows_scenario :
  run (download_market_data "IRFC" "2099-01-01" "2099-01-10") (Stubs.answer Stubs.zero_rows)
  = ([ announcement "2099-01-01" "2099-01-10"; request "2099-01-01" "2099-01-10";
       diagnostic EmptyResultError ],
     Raise EmptyResultError).
Proof. reflexivity. Qed.

(** ** More on how the loader runs *)

Module MoreFacts.
Section Run.
Context {V : Type}.
Implicit Types (p : Provider (DataFrame V)) (df : DataFrame V).

(** The block under [__main__], in terms of the call it makes. *)
Lemma run_main p s e :
  run (main s e) p =
  let '(log, o) := run (download_market_data "RELIANCE" s e) p in
  (preamble ++ log
     ++ match o with
        | Return out =>
            [ shape_line (len out) (length (columns out)); columns_line (columns out);
              working_line ]
        | Raise exn => [ test_failed exn ]
        end,
   Return tt).
Proof.
  unfold run, main, get_market_info, mbind, Py_bind, py_bind, mret, Py_ret, py_ret.
  unfold print at 1 2; cbn beta iota.
  rewrite map_to_list_singleton. cbn [for_each].
  unfold mbind, Py_bind, py_bind, dict_getitem.
  rewrite lookup_insert_eq.
  rewrite (lookup_insert_ne _ "name" "country"), lookup_insert_eq by done.
  rewrite (lookup_insert_ne _ "name" "symbol"), (lookup_insert_ne _ "country" "symbol"),
    lookup_insert_eq by done.
  unfold mret, Py_ret, py_ret, print, try_except, shape; cbn beta iota.
  destruct (download_market_data "RELIANCE" s e p) as [log [out|exn]]; simpl.
  - reflexivity.
  - reflexivity.
Qed.

(** Two answers that agree on what the loader reads of them give the same
    run. *)
Lemma run_download_congruence p p' code s e df df' :
  p "IRFC.NS" s e = Return df → p' "IRFC.NS" s e = Return df' →
  index df = index df' →
  length (series df) = length (series df') →
  (∀ col, has_column col (lowercased df) = has_column col (lowercased df')) →
  selection df = selection df' →
  run (download_market_data code s e) p = run (download_market_data code s e) p'.
Proof.
  intros Hp Hp' Hindex Hlen Hhas Hsel.
  rewrite !(run_download _ code), !run_download_IRFC, Hp, Hp'.
  assert (empty df = empty df') as ->.
  { unfold empty, columns. by rewrite Hindex, !length_fmap, Hlen. }
  assert (all (λ col, has_column col (lowercased df)) required_cols
          = all (λ col, has_column col (lowercased df')) required_cols) as ->.
  { unfold all, required_cols; simpl. by rewrite !Hhas. }
  unfold len. by rewrite Hsel, Hindex.
Qed.

Lemma lower_ascii_idemp c : lower_ascii (lower_ascii c) = lower_ascii c.
Proof. by destruct c as [[] [] [] [] [] [] [] []]. Qed.

Lemma lower_idemp name : lower (lower name) = lower name.
Proof.
  induction name as [|c name IH]; simpl; [done|].
  by rewrite lower_ascii_idemp, IH.
Qed.

(** What the lowercased table is made of. *)
Lemma lowercased_eq df df' :
  index df = index df' →
  (series df).*2 = (series df').*2 →
  lower <$> columns df = lower <$> columns df' →
  lowercased df = lowercased df'.
Proof. unfold lowercased. by intros -> -> ->. Qed.

Lemma list_filter_Permutation {A} (f : A → bool) (l1 l2 : list A) :
  l1 ≡ₚ l2 → List.filter f l1 ≡ₚ List.filter f l2.
Proof.
  induction 1 as [|x l1 l2 _ IH|x y l|l1 l2 l3 _ IH1 _ IH2]; simpl.
  - done.
  - destruct (f x); by rewrite IH.
  - destruct (f x), (f y); try done. apply perm_swap.
  - by etrans.
Qed.

Lemma length_columns_labelled k df :
  length (columns_labelled k (lowercased df)) = occurrences k df.
Proof.
  rewrite <- (length_fmap fst), labels_of_columns_labelled.
  apply length_replicate.
Qed.

(** A list with at most one element is the only permutation of itself. *)
Lemma Permutation_short {A} (l1 l2 : list A) :
  length l1 ≤ 1 → l1 ≡ₚ l2 → l1 = l2.
Proof.
  destruct l1 as [|x [|y l1]]; simpl; intros Hlen Hperm.
  - by apply Permutation_nil_l.
  - by apply Permutation_singleton_l.
  - lia.
Qed.

Lemma columns_labelled_Permutation k df df' :
  series df ≡ₚ series df' →
  columns_labelled k (lowercased df) ≡ₚ columns_labelled k (lowercased df').
Proof.
  intros Hperm. unfold columns_labelled. rewrite !series_lowercased.
  by apply list_filter_Permutation, fmap_Permutation.
Qed.

Lemma has_column_Permutation col df df' :
  series df ≡ₚ series df' →
  has_column col (lowercased df) = has_column col (lowercased df').
Proof.
  intros Hperm. unfold has_column. apply bool_decide_ext.
  rewrite !columns_lowercased. unfold columns. by rewrite Hperm.
Qed.

(** The events of a call for IRFC, whatever the answer: none is a warning,
    and the one request is the third. *)
Lemma log_download_IRFC p s e :
  ∃ final, (run (download_market_data "IRFC" s e) p).1
           = [announcement s e; request s e; final]
           ∧ ∀ code, final ≠ warning code.
Proof.
  rewrite run_download_IRFC.
  destruct (p "IRFC.NS" s e) as [df|exn]; [|by eexists].
  destruct (empty df); [by eexists|].
  destruct (all _ required_cols); by eexists.
Qed.
End Run.
End MoreFacts.

(** ** Further properties of the loader *)

Import MoreFacts.

(** X1.  A call of [download_market_data] reads the provider at one point
    only: two providers that answer the request for IRFC.NS over the dates
    asked for alike give the same run, lines and outcome, whatever they
    answer elsewhere and whatever the code asked for. *)
Theorem provider_is_read_at_IRFC_only
    {V : Type} (p p' : Provider (DataFrame V)) (code start_date end_date : string) :
  p "IRFC.NS" start_date end_date = p' "IRFC.NS" start_date end_date →
  run (download_market_data code start_date end_date) p
  = run (download_market_data code start_date end_date) p'.
Proof.
  intros Hp. by rewrite !(run_download _ code), !run_download_IRFC, Hp.
Qed.

Lemma provider_is_read_at_IRFC_only_witness :
  run (download_market_data "RELIANCE" "2020-01-01" "2020-01-10")
      (Stubs.only_IRFC Stubs.six_rows)
  = run (download_market_data "RELIANCE" "2020-01-01" "2020-01-10")
        (Stubs.answer Stubs.six_rows).
Proof.
  apply (provider_is_read_at_IRFC_only
           (Stubs.only_IRFC Stubs.six_rows) (Stubs.answer Stubs.six_rows)
           "RELIANCE" "2020-01-01" "2020-01-10").
  reflexivity.
Defined.

(** X2.  The code is compared exactly: a call prints the warning, as its
    first line and once, when the code is any text other than IRFC (irfc and
    the empty text too), and prints no warning at all for IRFC; the rest of
    the run is the run for IRFC. *)
Theorem warning_exactly_for_other_codes
    {V : Type} (p : Provider (DataFrame V)) (code start_date end_date : string) :
  (run (download_market_data code start_date end_date) p).1
  = (if bool_decide (code = "IRFC") then [] else [warning code])
      ++ (run (download_market_data "IRFC" start_date end_date) p).1
  ∧ ∀ code', warning code' ∉ (run (download_market_data "IRFC" start_date end_date) p).1.
Proof.
  split.
  - rewrite (run_download _ code).
    destruct (run (download_market_data "IRFC" start_date end_date) p) as [log o]; simpl.
    case_bool_decide as Hcode.
    + subst code. by rewrite contains_IRFC.
    + destruct (dict_contains code INDIAN_MARKET) eqn:Hin; [|done].
      destruct Hcode. apply supported_is_IRFC. intros Hnone.
      apply contains_only_IRFC in Hnone. congruence.
  - intros code'.
    destruct (log_download_IRFC p start_date end_date) as (final & -> & Hfinal).
    rewrite !elem_of_cons, elem_of_nil.
    intros [Heq|[Heq|[Heq|[]]]]; [discriminate Heq | discriminate Heq |].
    by apply (Hfinal code').
Qed.

(** X3.  A call that returns a table has printed, as its last line, the
    success notice with the number of rows of that table, which is the number
    of rows the provider gave; it has printed no diagnostic. *)
Theorem success_is_announced_with_row_count
    {V : Type} (p : Provider (DataFrame V)) (code start_date end_date : string)
    (out : DataFrame V) :
  (run (download_market_data code start_date end_date) p).2 = Return out →
  ∃ df,
    p "IRFC.NS" start_date end_date = Return df
    ∧ len out = len df
    ∧ last (run (download_market_data code start_date end_date) p).1
      = Some (success_notice (len out))
    ∧ ∀ exn, diagnostic exn ∉ (run (download_market_data code start_date end_date) p).1.
Proof.
  intros Hout.
  destruct (returned_inv _ _ _ _ _ Hout) as (df & Hp & Hempty & Hall & ->).
  apply all_required_true in Hall.
  exists df. split; [done|]. split; [done|].
  rewrite run_download, run_download_IRFC, Hp, Hempty, Hall. cbn [fst].
  split.
  - by destruct (dict_contains code INDIAN_MARKET).
  - intros exn.
    destruct (dict_contains code INDIAN_MARKET); simpl;
      rewrite !elem_of_cons, elem_of_nil; intros Hin;
      repeat (destruct Hin as [Hin|Hin]; [discriminate Hin|]); done.
Qed.

Lemma success_is_announced_with_row_count_witness :
  ∃ df,
    Stubs.answer Stubs.six_rows "IRFC.NS" "2020-01-01" "2020-01-10" = Return df
    ∧ len (selection Stubs.six_rows) = len df
    ∧ last (run (download_market_data "IRFC" "2020-01-01" "2020-01-10")
                (Stubs.answer Stubs.six_rows)).1
      = Some (success_notice (len (selection Stubs.six_rows)))
    ∧ ∀ exn, diagnostic exn ∉ (run (download_market_data "IRFC" "2020-01-01" "2020-01-10")
                                    (Stubs.answer Stubs.six_rows)).1.
Proof.
  apply (success_is_announced_with_row_count
           (Stubs.answer Stubs.six_rows) "IRFC" "2020-01-01" "2020-01-10"
           (selection Stubs.six_rows)).
  reflexivity.
Defined.

(** X4.  An answer with rows and no column at all is empty for pandas: the
    call raises the "No data found" error, not the "Missing required
    columns" one, and prints the diagnostic of that error last. *)
Theorem rows_without_columns_raise_EmptyResultError
    {V : Type} (p : Provider (DataFrame V)) (code start_date end_date : string)
    (df : DataFrame V) :
  p "IRFC.NS" start_date end_date = Return df →
  0 < len df →
  series df = [] →
  (run (download_market_data code start_date end_date) p).2 = Raise EmptyResultError
  ∧ last (run (download_market_data code start_date end_date) p).1
    = Some (diagnostic EmptyResultError).
Proof.
  intros Hp _ Hnil. rewrite run_download, run_download_IRFC, Hp.
  unfold empty, columns. rewrite Hnil, orb_true_r.
  by destruct (dict_contains code INDIAN_MARKET).
Qed.

Lemma rows_without_columns_raise_EmptyResultError_witness :
  (run (download_market_data "IRFC" "2020-01-01" "2020-01-10")
       (Stubs.answer Stubs.rows_only)).2 = Raise EmptyResultError
  ∧ last (run (download_market_data "IRFC" "2020-01-01" "2020-01-10")
              (Stubs.answer Stubs.rows_only)).1
    = Some (diagnostic EmptyResultError).
Proof.
  apply (rows_without_columns_raise_EmptyResultError
           (Stubs.answer Stubs.rows_only) "IRFC" "2020-01-01" "2020-01-10" Stubs.rows_only).
  - reflexivity.
  - unfold len. simpl. lia.
  - reflexivity.
Defined.

(** X5.  The names of the provider's columns are read without regard to
    case: two answers with the same dates and the same cells, column by
    column, whose names agree once lowercased (Open and OPEN, say) give the
    same run.  In particular an answer whose names are lowercase already is
    treated as its capitalised form. *)
Theorem column_names_are_read_without_case
    {V : Type} (p p' : Provider (DataFrame V)) (code start_date end_date : string)
    (df df' : DataFrame V) :
  p "IRFC.NS" start_date end_date = Return df →
  p' "IRFC.NS" start_date end_date = Return df' →
  index df = index df' →
  (series df).*2 = (series df').*2 →
  lower <$> columns df = lower <$> columns df' →
  run (download_market_data code start_date end_date) p
  = run (download_market_data code start_date end_date) p'.
Proof.
  intros Hp Hp' Hindex Hcells Hnames.
  assert (lowercased df = lowercased df') as Hlow by by apply lowercased_eq.
  apply (run_download_congruence _ _ _ _ _ df df'); try done.
  - by rewrite <- (length_fmap snd (series df)), Hcells, length_fmap.
  - intros col. by rewrite Hlow.
  - unfold selection. by rewrite Hlow, Hindex.
Qed.

Lemma column_names_are_read_without_case_witness :
  run (download_market_data "IRFC" "2020-01-01" "2020-01-10") (Stubs.answer Stubs.six_rows)
  = run (download_market_data "IRFC" "2020-01-01" "2020-01-10")
        (Stubs.answer Stubs.six_rows_shouting).
Proof.
  apply (column_names_are_read_without_case
           (Stubs.answer Stubs.six_rows) (Stubs.answer Stubs.six_rows_shouting)
           "IRFC" "2020-01-01" "2020-01-10" Stubs.six_rows Stubs.six_rows_shouting);
    reflexivity.
Defined.

(** X6.  The order of the provider's columns does not matter when no
    required name occurs twice: two answers with the same dates whose columns
    are a rearrangement of one another give the same run, and so the same
    table, with open, high, low, close, volume in that order. *)
Theorem column_order_does_not_matter
    {V : Type} (p p' : Provider (DataFrame V)) (code start_date end_date : string)
    (df df' : DataFrame V) :
  p "IRFC.NS" start_date end_date = Return df →
  p' "IRFC.NS" start_date end_date = Return df' →
  index df = index df' →
  series df ≡ₚ series df' →
  (∀ col, col ∈ required_cols → occurrences col df ≤ 1) →
  run (download_market_data code start_date end_date) p
  = run (download_market_data code start_date end_date) p'.
Proof.
  intros Hp Hp' Hindex Hperm Honce.
  apply (run_download_congruence _ _ _ _ _ df df'); try done.
  - by rewrite Hperm.
  - intros col. by apply has_column_Permutation.
  - assert (∀ k, k ∈ required_cols →
              columns_labelled k (lowercased df) = columns_labelled k (lowercased df'))
      as Hsame.
    { intros k Hk. apply Permutation_short.
      - rewrite length_columns_labelled. by apply Honce.
      - by apply columns_labelled_Permutation. }
    unfold selection, required_cols in *. cbn [flat_map].
    rewrite Hindex, !Hsame by (repeat constructor). done.
Qed.

Lemma column_order_does_not_matter_witness :
  run (download_market_data "IRFC" "2020-01-01" "2020-01-10") (Stubs.answer Stubs.six_rows)
  = run (download_market_data "IRFC" "2020-01-01" "2020-01-10")
        (Stubs.answer Stubs.six_rows_shuffled).
Proof.
  apply (column_order_does_not_matter
           (Stubs.answer Stubs.six_rows) (Stubs.answer Stubs.six_rows_shuffled)
           "IRFC" "2020-01-01" "2020-01-10" Stubs.six_rows Stubs.six_rows_shuffled).
  - reflexivity.
  - reflexivity.
  - reflexivity.
  - apply (bool_decide_unpack _). vm_compute. reflexivity.
  - intros col Hcol. unfold required_cols in Hcol.
    repeat (apply elem_of_cons in Hcol as [->|Hcol]; [vm_compute; lia|]).
    by apply elem_of_nil in Hcol.
Defined.

(** X7.  No required column is lost: every column of the provider's answer
    whose lowercased name is one of the five is in the table returned, under
    the lowercased name and with its cells; and the table has as many columns
    as the answer has columns with such a name. *)
Theorem no_required_column_is_lost
    {V : Type} (p : Provider (DataFrame V)) (code start_date end_date : string)
    (out : DataFrame V) :
  (run (download_market_data code start_date end_date) p).2 = Return out →
  ∃ df,
    p "IRFC.NS" start_date end_date = Return df
    ∧ (∀ name cells, (name, cells) ∈ series df → lower name ∈ required_cols →
         (lower name, cells) ∈ series out)
    ∧ length (series out) = sum_list ((λ k, occurrences k df) <$> required_cols).
Proof.
  intros (df & Hp & _ & _ & ->)%returned_inv.
  exists df. split; [done|]. split.
  - intros name cells. apply selection_complete.
  - rewrite <- (length_fmap fst). fold (columns (selection df)).
    rewrite columns_selection. unfold required_cols; simpl.
    rewrite !length_app, !length_replicate. simpl. lia.
Qed.

Lemma no_required_column_is_lost_witness :
  ∃ df,
    Stubs.answer Stubs.close_twice "IRFC.NS" "2020-01-01" "2020-01-10" = Return df
    ∧ (∀ name cells, (name, cells) ∈ series df → lower name ∈ required_cols →
         (lower name, cells) ∈ series (selection Stubs.close_twice))
    ∧ length (series (selection Stubs.close_twice))
      = sum_list ((λ k, occurrences k df) <$> required_cols).
Proof.
  apply (no_required_column_is_lost
           (Stubs.answer Stubs.close_twice) "IRFC" "2020-01-01" "2020-01-10"
           (selection Stubs.close_twice)).
  reflexivity.
Defined.

(** X8.  The table returned is a proper table whenever the provider's is:
    if every column of the answer has one cell per row, so has every column
    of the table returned. *)
Theorem returned_table_is_well_formed
    {V : Type} (p : Provider (DataFrame V)) (code start_date end_date : string)
    (df out : DataFrame V) :
  p "IRFC.NS" start_date end_date = Return df →
  well_formed df →
  (run (download_market_data code start_date end_date) p).2 = Return out →
  well_formed out.
Proof.
  intros Hp Hwf (df' & Hp' & _ & _ & ->)%returned_inv.
  rewrite Hp in Hp'. injection Hp' as <-. by apply well_formed_selection.
Qed.

Lemma returned_table_is_well_formed_witness : well_formed (selection Stubs.six_rows).
Proof.
  apply (returned_table_is_well_formed
           (Stubs.answer Stubs.six_rows) "IRFC" "2020-01-01" "2020-01-10"
           Stubs.six_rows (selection Stubs.six_rows)).
  - reflexivity.
  - unfold well_formed. simpl. repeat constructor.
  - reflexivity.
Defined.

(** X9.  [get_market_info] and [download_market_data] agree: for every code
    that [get_market_info] lists, the call for that code prints no warning
    and sends its one request for the symbol the descriptor gives. *)
Theorem listed_codes_are_fetched_under_their_symbol
    {V : Type} (p : Provider (DataFrame V)) (code start_date end_date : string)
    (market_info : gmap string (gmap string string))
    (info : gmap string string) (symbol : string) :
  (run get_market_info p).2 = Return market_info →
  market_info !! code = Some info →
  info !! "symbol" = Some symbol →
  provider_calls (run (download_market_data code start_date end_date) p).1
  = [ProviderCall symbol start_date end_date]
  ∧ (run (download_market_data code start_date end_date) p).1 !! 0
    = Some (announcement start_date end_date)
  ∧ INDIAN_MARKET !! code = Some symbol.
Proof.
  intros [= <-] Hcode Hsymbol.
  apply lookup_singleton_Some in Hcode as [<- <-].
  assert (symbol = "IRFC.NS") as -> by by simplify_map_eq.
  rewrite run_download_IRFC.
  destruct (p "IRFC.NS" start_date end_date) as [df|exn]; [|done].
  destruct (empty df); [done|].
  by destruct (all _ required_cols).
Qed.

Lemma listed_codes_are_fetched_under_their_symbol_witness :
  provider_calls (run (download_market_data "IRFC" "2020-01-01" "2020-01-10")
                      (Stubs.answer Stubs.six_rows)).1
  = [ProviderCall "IRFC.NS" "2020-01-01" "2020-01-10"]
  ∧ (run (download_market_data "IRFC" "2020-01-01" "2020-01-10")
         (Stubs.answer Stubs.six_rows)).1 !! 0
    = Some (announcement "2020-01-01" "2020-01-10")
  ∧ INDIAN_MARKET !! "IRFC" = Some "IRFC.NS".
Proof.
  apply (listed_codes_are_fetched_under_their_symbol
           (Stubs.answer Stubs.six_rows) "IRFC" "2020-01-01" "2020-01-10"
           {[ "IRFC" :=
                {[ "name" := "Indian Railway Finance Corporation Limited";
                   "country" := "India";
                   "symbol" := "IRFC.NS";
                   "description" :=
                     "IRFC - Indian Railway Finance Corporation - Indian Market Focus" ]} ]}
           {[ "name" := "Indian Railway Finance Corporation Limited";
              "country" := "India";
              "symbol" := "IRFC.NS";
              "description" :=
                "IRFC - Indian Railway Finance Corporation - Indian Market Focus" ]}
           "IRFC.NS").
  - reflexivity.
  - vm_compute. reflexivity.
  - vm_compute. reflexivity.
Defined.

(** ** The block under [__main__] *)

Lemma RELIANCE_unsupported : INDIAN_MARKET !! "RELIANCE" = None.
Proof. by apply lookup_singleton_ne. Qed.

(** The run of the block, by cases on the answer of the provider. *)
Lemma run_main_cases {V : Type} (p : Provider (DataFrame V)) (s e : string) :
  run (main s e) p =
  (preamble ++ [warning "RELIANCE"; announcement s e; request s e]
     ++ match (run (download_market_data "IRFC" s e) p).2 with
        | Return out =>
            [ success_notice (len out);
              shape_line (len out) (length (columns out)); columns_line (columns out);
              working_line ]
        | Raise exn => [ diagnostic exn; test_failed exn ]
        end,
   Return tt).
Proof.
  rewrite run_main, (run_download_unsupported _ "RELIANCE") by apply RELIANCE_unsupported.
  rewrite run_download_IRFC.
  destruct (p "IRFC.NS" s e) as [df|exn]; [|done].
  destruct (empty df); [done|].
  by destruct (all _ required_cols).
Qed.

(** X10.  The block under [__main__] catches every [Exception] of the
    download: when the provider answers with a table or raises an
    [Exception], the block ends normally; its last line is the closing line
    when the download returned a table, and the "Test failed" line with the
    text of the exception when the download raised one. *)
Theorem main_catches_every_Exception
    {V : Type} (p : Provider (DataFrame V)) (start_date end_date : string) :
  (run (main start_date end_date) p).2 = Return tt
  ∧ last (run (main start_date end_date) p).1
    = Some (match (run (download_market_data "RELIANCE" start_date end_date) p).2 with
            | Return _ => working_line
            | Raise exn => test_failed exn
            end).
Proof.
  rewrite outcome_download, run_main_cases.
  split; [done|]. cbn [fst].
  by destruct (run (download_market_data "IRFC" start_date end_date) p).2.
Qed.

(** X11.  The block asks for RELIANCE and gets IRFC: after its four opening
    lines it prints the warning that IRFC is used instead of RELIANCE, and it
    sends exactly one request, for IRFC.NS with the two dates. *)
Theorem main_fetches_IRFC_for_RELIANCE
    {V : Type} (p : Provider (DataFrame V)) (start_date end_date : string) :
  (∃ rest,
     (run (main start_date end_date) p).1
     = preamble ++ [warning "RELIANCE"; announcement start_date end_date;
                    request start_date end_date] ++ rest)
  ∧ provider_calls (run (main start_date end_date) p).1 = [request start_date end_date].
Proof.
  rewrite run_main_cases. cbn [fst]. split; [by eexists|].
  by destruct (run (download_market_data "IRFC" start_date end_date) p).2.
Qed.

(** X12.  When the download fails, the block reports the failure twice and
    does not claim success: its run is the opening lines, the warning, the
    announcement, the request, the loader's diagnostic and then the "Test
    failed" line, both with the text of the exception. *)
Theorem main_reports_failure_twice
    {V : Type} (p : Provider (DataFrame V)) (start_date end_date : string)
    (exn : Exception) :
  (run (download_market_data "RELIANCE" start_date end_date) p).2 = Raise exn →
  run (main start_date end_date) p
  = (preamble ++ [ warning "RELIANCE"; announcement start_date end_date;
                   request start_date end_date; diagnostic exn; test_failed exn ],
     Return tt).
Proof.
  intros Hexn. rewrite outcome_download in Hexn.
  by rewrite run_main_cases, Hexn.
Qed.

Lemma main_reports_failure_twice_witness :
  run (main "2020-01-01" "2020-01-31") (Stubs.failing Stubs.timeout_error)
  = (preamble ++ [ warning "RELIANCE"; announcement "2020-01-01" "2020-01-31";
                   request "2020-01-01" "2020-01-31"; diagnostic Stubs.timeout_error;
                   test_failed Stubs.timeout_error ],
     Return tt).
Proof.
  apply (main_reports_failure_twice
           (Stubs.failing Stubs.timeout_error) "2020-01-01" "2020-01-31" Stubs.timeout_error).
  reflexivity.
Defined.

(** X13.  When the provider answers with a table that is not empty and has
    each of the five names once, the block prints the number of rows and 5 as
    the shape, the list of the five lowercase names, and the closing line. *)
Theorem main_prints_shape_and_columns
    {V : Type} (p : Provider (DataFrame V)) (start_date end_date : string)
    (df : DataFrame V) :
  p "IRFC.NS" start_date end_date = Return df →
  empty df = false →
  (∀ col, col ∈ required_cols → occurrences col df = 1) →
  run (main start_date end_date) p
  = (preamble ++ [ warning "RELIANCE"; announcement start_date end_date;
                   request start_date end_date; success_notice (len df);
                   shape_line (len df) 5;
                   Stdout "Sample data columns: ['open', 'high', 'low', 'close', 'volume']";
                   working_line ],
     Return tt).
Proof.
  intros Hp Hempty Honce.
  assert (has_required_fields df) as Hall.
  { intros col Hcol. apply occurrences_pos. rewrite (Honce col Hcol). lia. }
  apply all_required_true in Hall.
  assert (columns (selection df) = required_cols) as Hcols.
  { rewrite columns_selection. unfold required_cols in *. simpl.
    rewrite !Honce by (repeat constructor). done. }
  rewrite run_main_cases, run_download_IRFC, Hp, Hempty, Hall. cbn [snd].
  by rewrite Hcols.
Qed.

Lemma main_prints_shape_and_columns_witness :
  run (main "2020-01-01" "2020-01-31") (Stubs.answer Stubs.six_rows)
  = (preamble ++ [ warning "RELIANCE"; announcement "2020-01-01" "2020-01-31";
                   request "2020-01-01" "2020-01-31"; success_notice (len Stubs.six_rows);
                   shape_line (len Stubs.six_rows) 5;
                   Stdout "Sample data columns: ['open', 'high', 'low', 'close', 'volume']";
                   working_line ],
     Return tt).
Proof.
  apply (main_prints_shape_and_columns
           (Stubs.answer Stubs.six_rows) "2020-01-01" "2020-01-31" Stubs.six_rows).
  - reflexivity.
  - reflexivity.
  - intros col Hcol. unfold required_cols in Hcol.
    repeat (apply elem_of_cons in Hcol as [->|Hcol]; [reflexivity|]).
    by apply elem_of_nil in Hcol.
Defined.

(** X14.  A run of [download_indian_market] is four events: its own line
    with the two dates, the loader's announcement, the one request for
    IRFC.NS, and then the success notice or the diagnostic; it never prints
    the warning about a replaced code. *)
Theorem download_indian_market_never_warns
    {V : Type} (p : Provider (DataFrame V)) (start_date end_date : string) :
  ∃ final,
    (run (download_indian_market start_date end_date) p).1
    = [ banner start_date end_date; announcement start_date end_date;
        request start_date end_date; final ]
    ∧ match (run (download_indian_market start_date end_date) p).2 with
      | Return out => final = success_notice (len out)
      | Raise exn => final = diagnostic exn
      end
    ∧ ∀ code, warning code ∉ (run (download_indian_market start_date end_date) p).1.
Proof.
  rewrite run_download_indian_market, run_download_IRFC.
  assert (∀ final : Event,
            (∀ code, final ≠ warning code) →
            ∀ code, warning code ∉ [ banner start_date end_date;
                                     announcement start_date end_date;
                                     request start_date end_date; final ]) as Hnot.
  { intros final Hfinal code. rewrite !elem_of_cons, elem_of_nil.
    intros [Heq|[Heq|[Heq|[Heq|[]]]]]; try discriminate Heq.
    by apply (Hfinal code). }
  destruct (p "IRFC.NS" start_date end_date) as [df|exn].
  - destruct (empty df); [|destruct (all _ required_cols)];
      (eexists; split; [reflexivity|]; split; [reflexivity|]; by apply Hnot).
  - eexists; split; [reflexivity|]; split; [reflexivity|]; by apply Hnot.
Qed.
